(** * Register transactions over I2C: [i2c_simple_main.c]

  A shallow embedding of the two register-access routines of
  [Espressif/MMC5603NJ-I2C/main/i2c_simple_main.c]
  ([i2c_master_read_slave_reg], [i2c_master_write_slave_reg]), of their
  wrappers and of [byte_swap], together with the properties of the
  command sequences they hand to the I2C driver.

  The ESP-IDF driver is an external collaborator.  It is modelled as a
  recorder: a command link is the list of the commands the caller queued
  on it, in order, as the caller asked for them, and
  [i2c_master_cmd_begin] hands the link to a bus whose behaviour is a
  variable of the development.  Creating a link always succeeds, and the
  checks the driver may make on what it is asked to queue are left out:
  the routines ignore the result of every queueing call. *)

From stdpp Require Import gmap list numbers strings.

Local Open Scope Z_scope.

(** ** C integers *)

Module C.

(** Conversion to [uint8_t], [uint16_t] and [size_t] (32 bits on the
    target): the value modulo the width. *)
Definition to_uint8 (x : Z) : Z := Z.land x 0xFF.
Definition to_uint16 (x : Z) : Z := Z.land x 0xFFFF.
Definition to_size_t (x : Z) : Z := x mod 2 ^ 32.

Definition is_uint8 (x : Z) : Prop := 0 <= x < 256.
Definition is_uint16 (x : Z) : Prop := 0 <= x < 65536.
Definition is_size_t (x : Z) : Prop := 0 <= x < 2 ^ 32.

(** A scalar used as a C [bool]: zero is false, anything else true. *)
Definition to_bool (x : Z) : bool := negb (x =? 0).

(** The null pointer; pointers are addresses. *)
Definition NULL : Z := 0.

End C.

(** ** Constants *)

(** From [esp_err.h]. *)
Definition esp_err_t : Type := Z.
Definition ESP_OK : esp_err_t := 0.
Definition ESP_FAIL : esp_err_t := -1.
Definition ESP_ERR_INVALID_ARG : esp_err_t := 0x102.
Definition ESP_ERR_TIMEOUT : esp_err_t := 0x107.

(** From [driver/i2c.h]: [i2c_port_t], [i2c_rw_t], [i2c_ack_type_t]. *)
Definition i2c_port_t : Type := Z.
Definition I2C_NUM_1 : i2c_port_t := 1.
Definition I2C_MASTER_WRITE : Z := 0.
Definition I2C_MASTER_READ : Z := 1.
Definition I2C_MASTER_ACK : Z := 0.
Definition I2C_MASTER_NACK : Z := 1.
Definition I2C_MASTER_LAST_NACK : Z := 2.

(** The defines of [i2c_simple_main.c]. *)
Definition I2C_PORT_NUM : i2c_port_t := I2C_NUM_1.
Definition WRITE_BIT : Z := I2C_MASTER_WRITE.
Definition READ_BIT : Z := I2C_MASTER_READ.
Definition ACK_CHECK_EN : Z := 0x1.
Definition ACK_CHECK_DIS : Z := 0x0.
Definition ACK_VAL : Z := 0x0.
Definition NACK_VAL : Z := 0x1.

Definition MMC5603NJ_I2C_ADDR : Z := 0x30.
Definition WHO_AM_I_REG : Z := 0x39.
Definition DEVICE_ID : Z := 0x10.
Definition MMC5603NJ_CTRL_REG0 : Z := 0x1A.

(** ** Command links and the wire *)

(** One entry of a command link, named after the driver call that queues
    it.  Buffers are held by address: the driver reads or fills them when
    the link is executed. *)
Inductive i2c_cmd : Type :=
  | CmdStart
  | CmdWriteByte (data : Z) (ack_en : bool)
  | CmdWrite (data : Z) (data_len : Z) (ack_en : bool)
  | CmdRead (data : Z) (data_len : Z) (ack : Z)
  | CmdReadByte (data : Z) (ack : Z)
  | CmdStop.

(** The master's answer to a byte it has read. *)
Inductive ack_bit : Type := ACK | NACK.

(** What goes over the two wires, byte by byte. *)
Inductive bus_op : Type :=
  | BusStart
  | BusTx (byte : Z) (ack_check : bool)
  | BusRx (answer : ack_bit)
  | BusStop.

#[global] Instance i2c_cmd_eq_dec : EqDecision i2c_cmd.
Proof. solve_decision. Defined.
#[global] Instance ack_bit_eq_dec : EqDecision ack_bit.
Proof. solve_decision. Defined.
#[global] Instance bus_op_eq_dec : EqDecision bus_op.
Proof. solve_decision. Defined.

Definition handle : Type := nat.

(** The calls on the driver that a caller can observe afterwards. *)
Inductive drv_event : Type :=
  | EvLinkCreate (h : handle)
  | EvCmdBegin (port : i2c_port_t) (h : handle) (cmds : list i2c_cmd)
      (wire : list bus_op) (ticks_to_wait : Z) (ret : esp_err_t)
  | EvLinkDelete (h : handle).

Definition is_begin (e : drv_event) : bool :=
  match e with EvCmdBegin _ _ _ _ _ _ => true | _ => false end.

Definition is_stop (c : i2c_cmd) : bool :=
  match c with CmdStop => true | _ => false end.

Definition is_start (c : i2c_cmd) : bool :=
  match c with CmdStart => true | _ => false end.

Definition is_bus_stop (o : bus_op) : bool :=
  match o with BusStop => true | _ => false end.

Definition is_bus_start (o : bus_op) : bool :=
  match o with BusStart => true | _ => false end.

Fixpoint count_if {A : Type} (p : A -> bool) (l : list A) : nat :=
  match l with
  | [] => O
  | x :: l' => ((if p x then 1 else 0) + count_if p l')%nat
  end.

(** Memory: bytes by address; an address never written reads as 0. *)
Definition load (m : gmap Z Z) (a : Z) : Z := default 0 (m !! a).

Definition load_bytes (m : gmap Z Z) (a : Z) (n : nat) : list Z :=
  map (fun i => load m (a + Z.of_nat i)) (seq 0 n).

Fixpoint store_bytes (m : gmap Z Z) (dst : list Z) (bytes : list Z) : gmap Z Z :=
  match dst, bytes with
  | a :: dst', b :: bytes' => store_bytes (<[a := b]> m) dst' bytes'
  | _, _ => m
  end.

(** The master's answers over a read of [len] bytes, by [i2c_ack_type_t]. *)
Definition read_answers (len : nat) (ack : Z) : list ack_bit :=
  if ack =? I2C_MASTER_ACK then repeat ACK len
  else if ack =? I2C_MASTER_LAST_NACK then
    match len with
    | O => []
    | S k => repeat ACK k ++ [NACK]
    end
  else repeat NACK len.

Definition wire_of_cmd (m : gmap Z Z) (c : i2c_cmd) : list bus_op :=
  match c with
  | CmdStart => [BusStart]
  | CmdWriteByte b en => [BusTx b en]
  | CmdWrite p len en => map (fun b => BusTx b en) (load_bytes m p (Z.to_nat len))
  | CmdRead _ len ack => map BusRx (read_answers (Z.to_nat len) ack)
  | CmdReadByte _ ack => map BusRx (read_answers 1 ack)
  | CmdStop => [BusStop]
  end.

Definition wire_of_link (m : gmap Z Z) (cmds : list i2c_cmd) : list bus_op :=
  flat_map (wire_of_cmd m) cmds.

(** Where the bytes read are stored, in the order they arrive. *)
Definition rx_dest_of_cmd (c : i2c_cmd) : list Z :=
  match c with
  | CmdRead p len _ => map (fun i => p + Z.of_nat i) (seq 0 (Z.to_nat len))
  | CmdReadByte p _ => [p]
  | _ => []
  end.

Definition rx_dest (cmds : list i2c_cmd) : list Z :=
  flat_map rx_dest_of_cmd cmds.

(** What the bus answers when a wire sequence is executed on it: a result
    code, the bytes received, the ticks it took, and the next state of the
    devices attached. *)
Record bus_reply (B : Type) : Type := BusReply {
  reply_err : esp_err_t;
  reply_rx : list Z;
  reply_ticks : Z;
  reply_state : B
}.

Arguments BusReply {B} _ _ _ _.
Arguments reply_err {B} _.
Arguments reply_rx {B} _.
Arguments reply_ticks {B} _.
Arguments reply_state {B} _.

(** ** The driver and the two routines *)

Section Engine.

(** The bus and whatever is attached to it, executing a wire sequence on a
    port with a bound on the ticks to wait. *)
Variable bus_state : Type.
Variable bus_exec :
  bus_state -> i2c_port_t -> list bus_op -> Z -> bus_reply bus_state.

(** [portTICK_PERIOD_MS] comes from the FreeRTOS configuration. *)
Variable portTICK_PERIOD_MS : Z.

Record driver_state : Type := DriverState {
  links : gmap nat (list i2c_cmd);
  mem : gmap Z Z;
  slave : bus_state;
  clock : Z;
  trace : list drv_event
}.

Definition M (A : Type) : Type := driver_state -> A * driver_state.

Definition ret {A : Type} (a : A) : M A := fun s => (a, s).

Definition bind {A B : Type} (c : M A) (k : A -> M B) : M B :=
  fun s => let (a, s') := c s in k a s'.

Definition when (b : bool) (c : M esp_err_t) : M unit :=
  if b then bind c (fun _ => ret tt) else ret tt.

Declare Scope drv_scope.
Delimit Scope drv_scope with drv.
Notation "x <- c ;; k" := (bind c (fun x => k))
  (at level 100, c at next level, right associativity) : drv_scope.
Notation "c ;; k" := (bind c (fun _ => k))
  (at level 100, right associativity) : drv_scope.
Local Open Scope drv_scope.

(** *** Driver calls *)

Definition i2c_cmd_link_create : M handle :=
  fun s =>
    let h := fresh (dom (links s)) in
    (h, DriverState (<[h := []]> (links s)) (mem s) (slave s) (clock s)
          (trace s ++ [EvLinkCreate h])).

Definition link_append (h : handle) (c : i2c_cmd) : M esp_err_t :=
  fun s =>
    match links s !! h with
    | Some l =>
        (ESP_OK,
         DriverState (<[h := l ++ [c]]> (links s)) (mem s) (slave s) (clock s)
           (trace s))
    | None => (ESP_ERR_INVALID_ARG, s)
    end.

Definition i2c_master_start (h : handle) : M esp_err_t :=
  link_append h CmdStart.

(** [data] is a [uint8_t] parameter and [ack_en] a [bool] one. *)
Definition i2c_master_write_byte (h : handle) (data : Z) (ack_en : Z) : M esp_err_t :=
  link_append h (CmdWriteByte (C.to_uint8 data) (C.to_bool ack_en)).

Definition i2c_master_write (h : handle) (data : Z) (data_len : Z) (ack_en : Z)
  : M esp_err_t :=
  link_append h (CmdWrite data (C.to_size_t data_len) (C.to_bool ack_en)).

Definition i2c_master_read (h : handle) (data : Z) (data_len : Z) (ack : Z)
  : M esp_err_t :=
  link_append h (CmdRead data (C.to_size_t data_len) ack).

Definition i2c_master_read_byte (h : handle) (data : Z) (ack : Z) : M esp_err_t :=
  link_append h (CmdReadByte data ack).

Definition i2c_master_stop (h : handle) : M esp_err_t :=
  link_append h CmdStop.

Definition i2c_master_cmd_begin (port : i2c_port_t) (h : handle) (ticks_to_wait : Z)
  : M esp_err_t :=
  fun s =>
    match links s !! h with
    | Some cmds =>
        let w := wire_of_link (mem s) cmds in
        let r := bus_exec (slave s) port w ticks_to_wait in
        (reply_err r,
         DriverState (links s)
           (store_bytes (mem s) (rx_dest cmds) (reply_rx r))
           (reply_state r) (clock s + reply_ticks r)
           (trace s ++ [EvCmdBegin port h cmds w ticks_to_wait (reply_err r)]))
    | None => (ESP_ERR_INVALID_ARG, s)
    end.

Definition i2c_cmd_link_delete (h : handle) : M unit :=
  fun s =>
    (tt, DriverState (delete h (links s)) (mem s) (slave s) (clock s)
           (trace s ++ [EvLinkDelete h])).

(** *** [i2c_simple_main.c] *)

Definition i2c_master_read_slave_reg
    (i2c_num : i2c_port_t) (i2c_addr i2c_reg : Z) (data_rd : Z) (size : Z)
  : M esp_err_t :=
  if size =? 0 then ret ESP_OK
  else
    cmd <- i2c_cmd_link_create ;;
    i2c_master_start cmd ;;
    i2c_master_write_byte cmd (Z.shiftl i2c_addr 1) ACK_CHECK_EN ;;
    i2c_master_write_byte cmd i2c_reg ACK_CHECK_EN ;;
    i2c_master_start cmd ;;
    i2c_master_write_byte cmd (Z.lor (Z.shiftl i2c_addr 1) READ_BIT) ACK_CHECK_EN ;;
    when (1 <? size) (i2c_master_read cmd data_rd (size - 1) ACK_VAL) ;;
    i2c_master_read_byte cmd (data_rd + size - 1) NACK_VAL ;;
    i2c_master_stop cmd ;;
    r <- i2c_master_cmd_begin i2c_num cmd (1000 / portTICK_PERIOD_MS) ;;
    i2c_cmd_link_delete cmd ;;
    ret r.

Definition i2c_master_write_slave_reg
    (i2c_num : i2c_port_t) (i2c_addr i2c_reg : Z) (data_wr : Z) (size : Z)
  : M esp_err_t :=
  cmd <- i2c_cmd_link_create ;;
  i2c_master_start cmd ;;
  i2c_master_write_byte cmd (Z.lor (Z.shiftl i2c_addr 1) WRITE_BIT) ACK_CHECK_EN ;;
  i2c_master_write_byte cmd i2c_reg ACK_CHECK_EN ;;
  i2c_master_write cmd data_wr size ACK_CHECK_EN ;;
  i2c_master_stop cmd ;;
  r <- i2c_master_cmd_begin i2c_num cmd (1000 / portTICK_PERIOD_MS) ;;
  i2c_cmd_link_delete cmd ;;
  ret r.

(** [count] is a [uint8_t] here and widens to [size_t]. *)
Definition rdMMC5x (reg : Z) (pdata : Z) (count : Z) : M esp_err_t :=
  i2c_master_read_slave_reg I2C_PORT_NUM MMC5603NJ_I2C_ADDR reg pdata count.

Definition wrMMC5x (reg : Z) (pdata : Z) (count : Z) : M esp_err_t :=
  i2c_master_write_slave_reg I2C_PORT_NUM MMC5603NJ_I2C_ADDR reg pdata count.

End Engine.

(** [uint16_t byte_swap(uint16_t data)]: the operands are promoted to
    [int], where neither shift overflows, and the result is converted
    back to 16 bits. *)
Definition byte_swap (data : Z) : Z :=
  C.to_uint16 (Z.lor (Z.shiftr data 8) (Z.shiftl data 8)).

Arguments DriverState {bus_state} _ _ _ _ _.
Arguments clock {bus_state} _.
Arguments links {bus_state} _.
Arguments mem {bus_state} _.
Arguments slave {bus_state} _.
Arguments trace {bus_state} _.
Arguments ret {bus_state A} _ _.
Arguments bind {bus_state A B} _ _ _.
Arguments when {bus_state} _ _ _.
Arguments i2c_cmd_link_create {bus_state} _.
Arguments link_append {bus_state} _ _ _.
Arguments i2c_master_start {bus_state} _ _.
Arguments i2c_master_write_byte {bus_state} _ _ _ _.
Arguments i2c_master_write {bus_state} _ _ _ _ _.
Arguments i2c_master_read {bus_state} _ _ _ _ _.
Arguments i2c_master_read_byte {bus_state} _ _ _ _.
Arguments i2c_master_stop {bus_state} _ _.
Arguments i2c_master_cmd_begin {bus_state} _ _ _ _ _.
Arguments i2c_cmd_link_delete {bus_state} _ _.
Arguments i2c_master_read_slave_reg {bus_state} _ _ _ _ _ _ _ _.
Arguments i2c_master_write_slave_reg {bus_state} _ _ _ _ _ _ _ _.
Arguments rdMMC5x {bus_state} _ _ _ _ _ _.
Arguments wrMMC5x {bus_state} _ _ _ _ _ _.

(** The first byte sent after each start condition, repeated or not: the
    address frames of a wire sequence. *)
Fixpoint address_frames (w : list bus_op) : list Z :=
  match w with
  | [] => []
  | BusStart :: w' =>
      match w' with
      | BusTx b _ :: _ => b :: address_frames w'
      | _ => address_frames w'
      end
  | _ :: w' => address_frames w'
  end.

(** ** A simulated slave

    A register-file device at [MMC5603NJ_I2C_ADDR], on which the routines
    can be run: the byte after the write-address selects a register, the
    bytes after it are stored from there on, and a read-address streams
    registers back from the selected one.  A byte nobody acknowledges
    fails the transaction when the master checks for it. *)

Module SimBus.

Inductive phase : Type := Idle | AwaitAddr | AwaitReg | Writing | Reading | Deaf.

Record dev : Type := Dev { regs : gmap Z Z; ptr : Z; ph : phase }.

Definition goto (d : dev) (p : phase) : dev := Dev (regs d) (ptr d) p.

Fixpoint run (d : dev) (ops : list bus_op) (rx : list Z) : esp_err_t * list Z * dev :=
  match ops with
  | [] => (ESP_OK, rx, d)
  | BusStart :: ops' => run (goto d AwaitAddr) ops' rx
  | BusStop :: ops' => run (goto d Idle) ops' rx
  | BusTx b chk :: ops' =>
      match ph d with
      | AwaitAddr =>
          if Z.shiftr b 1 =? MMC5603NJ_I2C_ADDR
          then run (goto d (if Z.testbit b 0 then Reading else AwaitReg)) ops' rx
          else if chk then (ESP_FAIL, rx, goto d Idle)
          else run (goto d Deaf) ops' rx
      | AwaitReg => run (Dev (regs d) b Writing) ops' rx
      | Writing =>
          run (Dev (<[ptr d := b]> (regs d)) ((ptr d + 1) mod 256) Writing) ops' rx
      | _ => if chk then (ESP_FAIL, rx, goto d Idle) else run d ops' rx
      end
  | BusRx _ :: ops' =>
      match ph d with
      | Reading =>
          run (Dev (regs d) ((ptr d + 1) mod 256) Reading) ops'
            (rx ++ [load (regs d) (ptr d)])
      | _ => run d ops' (rx ++ [0xFF])
      end
  end.

(** A slow bus: every start, byte and stop takes one tick, and a sequence
    that does not fit in the ticks allowed times out when they are spent. *)
Definition exec (d : dev) (port : i2c_port_t) (ops : list bus_op) (ticks : Z)
  : bus_reply dev :=
  if ticks <? Z.of_nat (length ops)
  then BusReply ESP_ERR_TIMEOUT [] (Z.max 0 ticks) (goto d Idle)
  else let '(err, rx, d') := run d ops [] in
       BusReply err rx (Z.of_nat (length ops)) d'.

(** The device as it powers up, and a driver that has done nothing yet. *)
Definition dev0 : dev := Dev {[ WHO_AM_I_REG := DEVICE_ID ]} 0 Idle.

Definition boot (m : gmap Z Z) : driver_state dev := DriverState ∅ m dev0 0 [].

End SimBus.

(** ** The links the two routines queue

    [i2c_master_read_slave_reg] and [i2c_master_write_slave_reg] queue a
    fixed sequence of commands; these are the sequences, call by call, as
    the driver records them ([read_slave_reg_run] and
    [write_slave_reg_run] below show that they are). *)

Definition read_slave_reg_link (i2c_addr i2c_reg data_rd size : Z) : list i2c_cmd :=
  [ CmdStart;
    CmdWriteByte (C.to_uint8 (Z.shiftl i2c_addr 1)) (C.to_bool ACK_CHECK_EN);
    CmdWriteByte (C.to_uint8 i2c_reg) (C.to_bool ACK_CHECK_EN);
    CmdStart;
    CmdWriteByte (C.to_uint8 (Z.lor (Z.shiftl i2c_addr 1) READ_BIT))
      (C.to_bool ACK_CHECK_EN) ]
  ++ (if 1 <? size then [CmdRead data_rd (C.to_size_t (size - 1)) ACK_VAL] else [])
  ++ [ CmdReadByte (data_rd + size - 1) NACK_VAL; CmdStop ].

Definition write_slave_reg_link (i2c_addr i2c_reg data_wr size : Z) : list i2c_cmd :=
  [ CmdStart;
    CmdWriteByte (C.to_uint8 (Z.lor (Z.shiftl i2c_addr 1) WRITE_BIT))
      (C.to_bool ACK_CHECK_EN);
    CmdWriteByte (C.to_uint8 i2c_reg) (C.to_bool ACK_CHECK_EN);
    CmdWrite data_wr (C.to_size_t size) (C.to_bool ACK_CHECK_EN);
    CmdStop ].

(** The two operations of the engine, the routine behind each, and the
    link each queues. *)
Inductive engine_op : Type := Read | Write.

Definition transact {bus_state : Type}
    (bus_exec : bus_state -> i2c_port_t -> list bus_op -> Z -> bus_reply bus_state)
    (portTICK_PERIOD_MS : Z) (op : engine_op)
  : i2c_port_t -> Z -> Z -> Z -> Z -> driver_state bus_state
    -> esp_err_t * driver_state bus_state :=
  match op with
  | Read => i2c_master_read_slave_reg bus_exec portTICK_PERIOD_MS
  | Write => i2c_master_write_slave_reg bus_exec portTICK_PERIOD_MS
  end.

Definition link_of (op : engine_op) : Z -> Z -> Z -> Z -> list i2c_cmd :=
  match op with
  | Read => read_slave_reg_link
  | Write => write_slave_reg_link
  end.

(** Whether a call gets as far as creating its link: every write does; a
    read of no bytes returns before. *)
Definition reaches_bus (op : engine_op) (size : Z) : bool :=
  match op with
  | Read => negb (size =? 0)
  | Write => true
  end.

(** A call with a null buffer refused before anything is done: the
    argument error comes back and the driver is as it was. *)
Definition null_buffer_rejected {bus_state : Type}
    (bus_exec : bus_state -> i2c_port_t -> list bus_op -> Z -> bus_reply bus_state)
    (portTICK_PERIOD_MS : Z) (op : engine_op)
    (port : i2c_port_t) (A reg size : Z) (s : driver_state bus_state) : Prop :=
  let out := transact bus_exec portTICK_PERIOD_MS op port A reg C.NULL size s in
  out.1 = ESP_ERR_INVALID_ARG /\ out.2 = s.

(** The driver's side of the timeout: an execution takes no longer than
    the ticks it was allowed. *)
Definition honours_timeout {bus_state : Type}
    (bus_exec : bus_state -> i2c_port_t -> list bus_op -> Z -> bus_reply bus_state)
  : Prop :=
  forall b port wire ticks,
    0 <= ticks -> 0 <= reply_ticks (bus_exec b port wire ticks) <= ticks.

(** ** The identity check

    [mmaMMC5_init] reads [WHO_AM_I_REG] into a local byte, compares it with
    [DEVICE_ID] and logs the outcome; the result of the read is dropped.
    The local [val] is not initialised: it is the byte that memory holds
    at its address, here a parameter, when the function is entered.  What
    [ESP_LOGI] and [ESP_LOGE] are given is the value of the function. *)

Inductive log_level : Type := LOG_ERROR | LOG_INFO.

Record log_line : Type := LogLine {
  log_lvl : log_level;
  log_tag : string;
  log_format : string;
  log_arg : Z
}.

Definition TAG : string := "i2c_restart".

Definition mmaMMC5_init {bus_state : Type}
    (bus_exec : bus_state -> i2c_port_t -> list bus_op -> Z -> bus_reply bus_state)
    (portTICK_PERIOD_MS : Z) (val : Z) (s : driver_state bus_state)
  : log_line * driver_state bus_state :=
  let (_, s1) := rdMMC5x bus_exec portTICK_PERIOD_MS WHO_AM_I_REG val 1 s in
  let v := load (mem s1) val in
  if v =? DEVICE_ID
  then (LogLine LOG_INFO TAG "MMC5x ID:0x%X (ok)" v, s1)
  else (LogLine LOG_ERROR TAG
          "MMC5x ID:0x%X !!!! (NOT correct; should be 0x01)" v, s1).

Definition is_bus_rx (o : bus_op) : bool :=
  match o with BusRx _ => true | _ => false end.

Definition is_bus_tx (o : bus_op) : bool :=
  match o with BusTx _ _ => true | _ => false end.

(** * Properties *)

(** ** C integers *)

Lemma to_uint8_mod (x : Z) : C.to_uint8 x = x mod 256.
Proof.
  unfold C.to_uint8. change 0xFF with (Z.ones 8).
  rewrite Z.land_ones by lia. reflexivity.
Qed.

Lemma to_uint8_small (x : Z) : C.is_uint8 x -> C.to_uint8 x = x.
Proof.
  intros Hx. rewrite to_uint8_mod. apply Z.mod_small. exact Hx.
Qed.

Lemma to_size_t_small (x : Z) : C.is_size_t x -> C.to_size_t x = x.
Proof.
  intros Hx. unfold C.to_size_t. apply Z.mod_small. exact Hx.
Qed.

Lemma shiftl_1_double (a : Z) : Z.shiftl a 1 = 2 * a.
Proof. rewrite Z.shiftl_mul_pow2 by lia. lia. Qed.

Lemma double_land_1 (a : Z) : Z.land (2 * a) 1 = 0.
Proof.
  apply Z.bits_inj'; intros n Hn. rewrite Z.land_spec, Z.bits_0.
  destruct (decide (n = 0)) as [-> | Hne].
  - rewrite Z.testbit_even_0. reflexivity.
  - change 1 with (Z.ones 1). rewrite Z.ones_spec_high by lia.
    apply andb_false_r.
Qed.

Lemma shiftl_1_lor_1 (a : Z) : Z.lor (Z.shiftl a 1) 1 = 2 * a + 1.
Proof.
  rewrite shiftl_1_double.
  rewrite <- Z.lxor_lor by apply double_land_1.
  symmetry. apply Z.add_nocarry_lxor, double_land_1.
Qed.

(** ** Running the routines *)

Section EngineFacts.

Context {bus_state : Type}.
Variable bus_exec :
  bus_state -> i2c_port_t -> list bus_op -> Z -> bus_reply bus_state.
Variable portTICK_PERIOD_MS : Z.

Implicit Types (s : driver_state bus_state) (L : gmap nat (list i2c_cmd)).

(** Queuing on a live link extends it and touches nothing else. *)
Lemma link_append_run h c l L m (b : bus_state) k t :
  link_append h c (DriverState (<[h := l]> L) m b k t)
  = (ESP_OK, DriverState (<[h := l ++ [c]]> L) m b k t).
Proof.
  unfold link_append; simpl.
  rewrite lookup_insert_eq, insert_insert_eq. reflexivity.
Qed.

Lemma start_run h l L m (b : bus_state) k t :
  i2c_master_start h (DriverState (<[h := l]> L) m b k t)
  = (ESP_OK, DriverState (<[h := l ++ [CmdStart]]> L) m b k t).
Proof. apply link_append_run. Qed.

Lemma write_byte_run h data ack_en l L m (b : bus_state) k t :
  i2c_master_write_byte h data ack_en (DriverState (<[h := l]> L) m b k t)
  = (ESP_OK,
     DriverState
       (<[h := l ++ [CmdWriteByte (C.to_uint8 data) (C.to_bool ack_en)]]> L) m b k t).
Proof. apply link_append_run. Qed.

Lemma write_run h data len ack_en l L m (b : bus_state) k t :
  i2c_master_write h data len ack_en (DriverState (<[h := l]> L) m b k t)
  = (ESP_OK,
     DriverState
       (<[h := l ++ [CmdWrite data (C.to_size_t len) (C.to_bool ack_en)]]> L) m b k t).
Proof. apply link_append_run. Qed.

Lemma read_run h data len ack l L m (b : bus_state) k t :
  i2c_master_read h data len ack (DriverState (<[h := l]> L) m b k t)
  = (ESP_OK,
     DriverState (<[h := l ++ [CmdRead data (C.to_size_t len) ack]]> L) m b k t).
Proof. apply link_append_run. Qed.

Lemma read_byte_run h data ack l L m (b : bus_state) k t :
  i2c_master_read_byte h data ack (DriverState (<[h := l]> L) m b k t)
  = (ESP_OK, DriverState (<[h := l ++ [CmdReadByte data ack]]> L) m b k t).
Proof. apply link_append_run. Qed.

Lemma stop_run h l L m (b : bus_state) k t :
  i2c_master_stop h (DriverState (<[h := l]> L) m b k t)
  = (ESP_OK, DriverState (<[h := l ++ [CmdStop]]> L) m b k t).
Proof. apply link_append_run. Qed.

Lemma cmd_begin_run port h ticks l L m (b : bus_state) k t :
  i2c_master_cmd_begin bus_exec port h ticks (DriverState (<[h := l]> L) m b k t)
  = let w := wire_of_link m l in
    let r := bus_exec b port w ticks in
    (reply_err r,
     DriverState (<[h := l]> L) (store_bytes m (rx_dest l) (reply_rx r))
       (reply_state r) (k + reply_ticks r)
       (t ++ [EvCmdBegin port h l w ticks (reply_err r)])).
Proof.
  unfold i2c_master_cmd_begin; simpl.
  rewrite lookup_insert_eq. reflexivity.
Qed.

(** A fresh handle names no link, so deleting it restores the table. *)
Lemma delete_fresh_link l L :
  delete (fresh (dom L)) (<[fresh (dom L) := l]> L) = L.
Proof.
  rewrite delete_insert_eq. apply delete_id.
  apply not_elem_of_dom, is_fresh.
Qed.

(** One call of a routine: expose it, run it on the link built so far. *)
Ltac step_link :=
  unfold bind at 1;
  first [ rewrite start_run | rewrite write_byte_run | rewrite write_run
        | rewrite read_run | rewrite read_byte_run | rewrite stop_run ];
  cbv beta iota.

(** The tail both routines share: the last commands, the execution, the
    deletion of the link. *)
Ltac finish_run :=
  repeat step_link;
  unfold bind at 1; rewrite cmd_begin_run; cbv beta iota zeta;
  unfold bind, i2c_cmd_link_delete, ret; cbn [links mem slave clock trace fst snd];
  rewrite delete_fresh_link, <- !app_assoc; cbn [app]; reflexivity.

Lemma read_slave_reg_run port A reg buf size s :
  size <> 0 ->
  i2c_master_read_slave_reg bus_exec portTICK_PERIOD_MS port A reg buf size s
  = let h := fresh (dom (links s)) in
    let cmds := read_slave_reg_link A reg buf size in
    let w := wire_of_link (mem s) cmds in
    let ticks := 1000 / portTICK_PERIOD_MS in
    let r := bus_exec (slave s) port w ticks in
    (reply_err r,
     DriverState (links s) (store_bytes (mem s) (rx_dest cmds) (reply_rx r))
       (reply_state r) (clock s + reply_ticks r)
       (trace s ++ [EvLinkCreate h; EvCmdBegin port h cmds w ticks (reply_err r);
                    EvLinkDelete h])).
Proof.
  intros Hsize. unfold i2c_master_read_slave_reg, read_slave_reg_link.
  apply Z.eqb_neq in Hsize. rewrite Hsize.
  unfold bind at 1, i2c_cmd_link_create at 1.
  do 5 step_link.
  unfold bind at 1, when.
  destruct (1 <? size).
  - step_link. unfold ret at 1. cbv beta iota. finish_run.
  - unfold ret at 1. cbv beta iota. finish_run.
Qed.

Lemma write_slave_reg_run port A reg buf size s :
  i2c_master_write_slave_reg bus_exec portTICK_PERIOD_MS port A reg buf size s
  = let h := fresh (dom (links s)) in
    let cmds := write_slave_reg_link A reg buf size in
    let w := wire_of_link (mem s) cmds in
    let ticks := 1000 / portTICK_PERIOD_MS in
    let r := bus_exec (slave s) port w ticks in
    (reply_err r,
     DriverState (links s) (store_bytes (mem s) (rx_dest cmds) (reply_rx r))
       (reply_state r) (clock s + reply_ticks r)
       (trace s ++ [EvLinkCreate h; EvCmdBegin port h cmds w ticks (reply_err r);
                    EvLinkDelete h])).
Proof.
  unfold i2c_master_write_slave_reg, write_slave_reg_link.
  unfold bind at 1, i2c_cmd_link_create at 1.
  do 3 step_link. finish_run.
Qed.

End EngineFacts.

(** ** Counting and the wire *)

Lemma count_if_app {A : Type} (p : A -> bool) (l1 l2 : list A) :
  count_if p (l1 ++ l2) = (count_if p l1 + count_if p l2)%nat.
Proof.
  induction l1 as [| x l1 IH]; simpl; [reflexivity |].
  rewrite IH. lia.
Qed.

Lemma count_if_none {A : Type} (p : A -> bool) (l : list A) :
  Forall (fun x => p x = false) l -> count_if p l = O.
Proof.
  induction 1 as [| x l Hx _ IH]; simpl; [reflexivity |].
  rewrite Hx, IH. reflexivity.
Qed.

Lemma Forall_repeat {A : Type} (P : A -> Prop) (x : A) (n : nat) :
  P x -> Forall P (repeat x n).
Proof. intros Hx. induction n; simpl; constructor; assumption. Qed.

Lemma Forall_map_const {A B : Type} (P : B -> Prop) (f : A -> B) (l : list A) :
  (forall a, P (f a)) -> Forall P (map f l).
Proof. intros Hf. induction l; simpl; constructor; auto. Qed.

Lemma load_bytes_length m a n : length (load_bytes m a n) = n.
Proof. unfold load_bytes. rewrite length_map, length_seq. reflexivity. Qed.

(** The wire sequence of a read of [size >= 1] bytes. *)
Lemma wire_read_link m A reg buf size :
  C.is_size_t size -> 1 <= size ->
  wire_of_link m (read_slave_reg_link A reg buf size)
  = [ BusStart;
      BusTx (C.to_uint8 (Z.shiftl A 1)) true;
      BusTx (C.to_uint8 reg) true;
      BusStart;
      BusTx (C.to_uint8 (Z.lor (Z.shiftl A 1) 1)) true ]
    ++ repeat (BusRx ACK) (Z.to_nat (size - 1))
    ++ [ BusRx NACK; BusStop ].
Proof.
  intros Hsz Hge. unfold C.is_size_t in Hsz.
  unfold wire_of_link, read_slave_reg_link.
  destruct (1 <? size) eqn:Hlt.
  - rewrite !flat_map_app. cbn [flat_map wire_of_cmd app].
    rewrite to_size_t_small by (unfold C.is_size_t; lia).
    unfold read_answers. cbn. rewrite map_repeat, app_nil_r. reflexivity.
  - apply Z.ltb_ge in Hlt. replace size with 1 by lia. reflexivity.
Qed.

(** The wire sequence of a write: the payload is what the buffer holds
    when the link is executed. *)
Lemma wire_write_link m A reg buf size :
  C.is_size_t size ->
  wire_of_link m (write_slave_reg_link A reg buf size)
  = [ BusStart;
      BusTx (C.to_uint8 (Z.shiftl A 1)) true;
      BusTx (C.to_uint8 reg) true ]
    ++ map (fun b => BusTx b true) (load_bytes m buf (Z.to_nat size))
    ++ [ BusStop ].
Proof.
  intros Hsz. unfold wire_of_link, write_slave_reg_link.
  cbn [flat_map wire_of_cmd app].
  rewrite to_size_t_small by exact Hsz.
  unfold WRITE_BIT, I2C_MASTER_WRITE. rewrite Z.lor_0_r.
  reflexivity.
Qed.

(** The bytes of a read land in the buffer, first to last. *)
Lemma rx_dest_read_link A reg buf size :
  C.is_size_t size -> 1 <= size ->
  rx_dest (read_slave_reg_link A reg buf size)
  = map (fun i => buf + Z.of_nat i) (seq 0 (Z.to_nat size)).
Proof.
  intros Hsz Hge. unfold C.is_size_t in Hsz.
  unfold rx_dest, read_slave_reg_link.
  destruct (1 <? size) eqn:Hlt.
  - rewrite !flat_map_app. cbn [flat_map rx_dest_of_cmd app].
    rewrite to_size_t_small by (unfold C.is_size_t; lia).
    replace (Z.to_nat size) with (S (Z.to_nat (size - 1))) by lia.
    rewrite seq_S, map_app, app_nil_r. cbn [map Nat.add]. do 2 f_equal. lia.
  - apply Z.ltb_ge in Hlt. replace size with 1 by lia.
    change (Z.to_nat 1) with 1%nat. cbn. f_equal. lia.
Qed.

(** ** The transactions *)

Section Transactions.

Context {bus_state : Type}.
Variable bus_exec :
  bus_state -> i2c_port_t -> list bus_op -> Z -> bus_reply bus_state.
Variable portTICK_PERIOD_MS : Z.

Implicit Types (s : driver_state bus_state) (op : engine_op).

(** Either routine, once past the guard of the read: one link created,
    queued as [link_of] says, executed once, deleted. *)
Lemma transact_run op port A reg buf size s :
  reaches_bus op size = true ->
  transact bus_exec portTICK_PERIOD_MS op port A reg buf size s
  = let h := fresh (dom (links s)) in
    let cmds := link_of op A reg buf size in
    let w := wire_of_link (mem s) cmds in
    let ticks := 1000 / portTICK_PERIOD_MS in
    let r := bus_exec (slave s) port w ticks in
    (reply_err r,
     DriverState (links s) (store_bytes (mem s) (rx_dest cmds) (reply_rx r))
       (reply_state r) (clock s + reply_ticks r)
       (trace s ++ [EvLinkCreate h; EvCmdBegin port h cmds w ticks (reply_err r);
                    EvLinkDelete h])).
Proof.
  destruct op; cbn [reaches_bus transact link_of]; intros Hgo.
  - apply read_slave_reg_run. apply negb_true_iff, Z.eqb_neq in Hgo. exact Hgo.
  - apply write_slave_reg_run.
Qed.

(** C1. A read of [size >= 1] bytes builds and executes, in order: a
    start; the device address with write intent and the register index,
    both with the slave's acknowledgement checked; a second start with no
    stop before it; the device address with read intent; [size - 1] bytes
    read and answered ACK; one last byte read and answered NACK; a stop.
    Built: one link is created and holds these commands.  Executed: the
    bus is driven with this sequence, once; its result is the result of
    the call, its devices are left as that execution left them, and the
    bytes it delivered are stored where the link says. *)
Theorem read_transaction_sequence port A reg buf size s :
  C.is_uint8 A -> C.is_uint8 reg -> C.is_size_t size -> 1 <= size ->
  let out := i2c_master_read_slave_reg bus_exec portTICK_PERIOD_MS
               port A reg buf size s in
  let wire :=
    [ BusStart;
      BusTx (C.to_uint8 (Z.shiftl A 1)) true;
      BusTx reg true;
      BusStart;
      BusTx (C.to_uint8 (Z.lor (Z.shiftl A 1) 1)) true ]
    ++ repeat (BusRx ACK) (Z.to_nat (size - 1))
    ++ [ BusRx NACK; BusStop ] in
  let reply := bus_exec (slave s) port wire (1000 / portTICK_PERIOD_MS) in
  out.1 = reply_err reply
  /\ slave out.2 = reply_state reply
  /\ mem out.2
     = store_bytes (mem s) (rx_dest (read_slave_reg_link A reg buf size))
         (reply_rx reply)
  /\ clock out.2 = clock s + reply_ticks reply
  /\ exists h,
       trace out.2
       = trace s ++ [ EvLinkCreate h;
                      EvCmdBegin port h (read_slave_reg_link A reg buf size) wire
                        (1000 / portTICK_PERIOD_MS) (reply_err reply);
                      EvLinkDelete h ].
Proof.
  intros HA Hreg Hsz Hge out wire reply. subst out reply wire.
  rewrite read_slave_reg_run by lia. cbv zeta.
  cbn [fst snd trace slave mem clock].
  rewrite wire_read_link by assumption.
  rewrite (to_uint8_small reg) by exact Hreg.
  repeat split. eexists. reflexivity.
Qed.

(** C2. A write builds and executes, in order: a start; the device
    address with write intent and the register index, both acknowledged;
    the [size] bytes of the buffer, each acknowledged; a stop.  There is
    one start in the whole sequence.  Built: one link is created and holds
    these commands.  Executed: the bus is driven with this sequence, once;
    its result is the result of the call and its devices are left as that
    execution left them. *)
Theorem write_transaction_sequence port A reg buf size s :
  C.is_uint8 A -> C.is_uint8 reg -> C.is_size_t size ->
  let out := i2c_master_write_slave_reg bus_exec portTICK_PERIOD_MS
               port A reg buf size s in
  let payload := load_bytes (mem s) buf (Z.to_nat size) in
  let wire :=
    [ BusStart;
      BusTx (C.to_uint8 (Z.shiftl A 1)) true;
      BusTx reg true ]
    ++ map (fun b => BusTx b true) payload
    ++ [ BusStop ] in
  let reply := bus_exec (slave s) port wire (1000 / portTICK_PERIOD_MS) in
  Z.of_nat (length payload) = size
  /\ count_if is_bus_start wire = 1%nat
  /\ count_if is_start (write_slave_reg_link A reg buf size) = 1%nat
  /\ out.1 = reply_err reply
  /\ slave out.2 = reply_state reply
  /\ clock out.2 = clock s + reply_ticks reply
  /\ exists h,
       trace out.2
       = trace s ++ [ EvLinkCreate h;
                      EvCmdBegin port h (write_slave_reg_link A reg buf size) wire
                        (1000 / portTICK_PERIOD_MS) (reply_err reply);
                      EvLinkDelete h ].
Proof.
  intros HA Hreg Hsz out payload wire reply.
  split; [| split; [| split]].
  - subst payload. rewrite load_bytes_length. unfold C.is_size_t in Hsz. lia.
  - subst wire. rewrite !count_if_app.
    rewrite (count_if_none _ (map _ _)) by (apply Forall_map_const; reflexivity).
    reflexivity.
  - reflexivity.
  - subst out reply wire payload.
    rewrite write_slave_reg_run. cbv zeta. cbn [fst snd trace slave clock].
    rewrite wire_write_link by assumption.
    rewrite (to_uint8_small reg) by exact Hreg.
    repeat split. eexists. reflexivity.
Qed.

(** C3. A call that starts a link queues one stop on it, as its last
    command, and the link is executed before the call returns; on the
    wire this is one stop condition, at the end.  It holds for every bus,
    hence whatever the result of the execution. *)
Theorem one_stop_per_transaction op port A reg buf size s :
  C.is_size_t size -> reaches_bus op size = true ->
  let out := transact bus_exec portTICK_PERIOD_MS op port A reg buf size s in
  exists h cmds wire,
    trace out.2
    = trace s ++ [ EvLinkCreate h;
                   EvCmdBegin port h cmds wire (1000 / portTICK_PERIOD_MS) out.1;
                   EvLinkDelete h ]
    /\ count_if is_stop cmds = 1%nat /\ list.last cmds = Some CmdStop
    /\ count_if is_bus_stop wire = 1%nat /\ list.last wire = Some BusStop.
Proof.
  intros Hsz Hgo out. subst out.
  rewrite transact_run by exact Hgo. cbv zeta. cbn [fst snd trace].
  eexists _, _, _. split; [reflexivity |].
  destruct op; cbn [link_of].
  - assert (1 <= size) as Hge.
    { cbn in Hgo. apply negb_true_iff, Z.eqb_neq in Hgo.
      unfold C.is_size_t in Hsz. lia. }
    rewrite wire_read_link by assumption.
    unfold read_slave_reg_link.
    rewrite !count_if_app, !last_app.
    rewrite (count_if_none _ (repeat _ _)) by (apply Forall_repeat; reflexivity).
    destruct (1 <? size); repeat split; reflexivity.
  - rewrite wire_write_link by assumption.
    rewrite !count_if_app, !last_app.
    rewrite (count_if_none _ (map _ _)) by (apply Forall_map_const; reflexivity).
    repeat split; reflexivity.
Qed.

(** C4. A read of no bytes returns [ESP_OK] at once: the driver is left
    as it was, so no link was created, nothing was executed on the bus
    and no byte of memory, the output buffer included, has changed. *)
Theorem read_of_nothing port A reg buf s :
  let out := i2c_master_read_slave_reg bus_exec portTICK_PERIOD_MS
               port A reg buf 0 s in
  out.1 = ESP_OK /\ out.2 = s
  /\ trace out.2 = trace s /\ mem out.2 = mem s /\ slave out.2 = slave s.
Proof. repeat split; reflexivity. Qed.

(** C5. The address frames of a transaction, as bytes: the device address
    shifted left by one for the write direction, in the preamble of a read
    as in a write, and the same with the low bit set for the read
    direction. *)
Theorem address_framing op port A reg buf size s :
  C.is_uint8 A -> C.is_size_t size -> reaches_bus op size = true ->
  let out := transact bus_exec portTICK_PERIOD_MS op port A reg buf size s in
  let write_frame := C.to_uint8 (Z.shiftl A 1) in
  let read_frame := C.to_uint8 (Z.lor (Z.shiftl A 1) 1) in
  write_frame = (2 * A) mod 256
  /\ read_frame = (2 * A + 1) mod 256
  /\ exists h cmds wire,
       trace out.2
       = trace s ++ [ EvLinkCreate h;
                      EvCmdBegin port h cmds wire (1000 / portTICK_PERIOD_MS) out.1;
                      EvLinkDelete h ]
       /\ address_frames wire
          = match op with
            | Read => [write_frame; read_frame]
            | Write => [write_frame]
            end.
Proof.
  intros HA Hsz Hgo out write_frame read_frame.
  subst out write_frame read_frame.
  split; [| split].
  - rewrite to_uint8_mod, shiftl_1_double. reflexivity.
  - rewrite to_uint8_mod, shiftl_1_lor_1. reflexivity.
  - rewrite transact_run by exact Hgo. cbv zeta. cbn [fst snd trace].
    eexists _, _, _. split; [reflexivity |].
    destruct op; cbn [link_of].
    + assert (1 <= size) as Hge.
      { cbn in Hgo. apply negb_true_iff, Z.eqb_neq in Hgo.
        unfold C.is_size_t in Hsz. lia. }
      rewrite wire_read_link by assumption.
      cbn [app address_frames]. f_equal. f_equal.
      generalize (Z.to_nat (size - 1)). intros n.
      induction n as [| n IH]; [reflexivity | exact IH].
    + rewrite wire_write_link by assumption.
      cbn [app address_frames]. f_equal.
      generalize (load_bytes (mem s) buf (Z.to_nat size)). intros l.
      induction l as [| b l IH]; [reflexivity | exact IH].
Qed.

(** Without the conversion when the address has seven bits, as I2C
    addresses do; the top bit of a wider one is lost. *)
Lemma address_frame_7bit A :
  0 <= A < 128 ->
  C.to_uint8 (Z.shiftl A 1) = Z.shiftl A 1
  /\ C.to_uint8 (Z.lor (Z.shiftl A 1) 1) = Z.lor (Z.shiftl A 1) 1.
Proof.
  intros HA. rewrite !to_uint8_mod, shiftl_1_lor_1, shiftl_1_double.
  split; apply Z.mod_small; lia.
Qed.

Example address_frame_0x80 :
  C.to_uint8 (Z.shiftl 0x80 1) = 0 /\ C.to_uint8 (Z.lor (Z.shiftl 0x80 1) 1) = 1.
Proof. split; reflexivity. Qed.

(** C6, as the code has it.  Neither routine looks at its buffer
    argument: with a null buffer and [size >= 1] the link is created, the
    start, address and register bytes are queued first as for any other
    buffer, the link is executed once on the bus, and what comes back is
    the result of that execution. *)
Theorem null_buffer_not_checked op port A reg size s :
  C.is_size_t size -> 1 <= size ->
  let out := transact bus_exec portTICK_PERIOD_MS op port A reg C.NULL size s in
  exists h cmds wire,
    trace out.2
    = trace s ++ [ EvLinkCreate h;
                   EvCmdBegin port h cmds wire (1000 / portTICK_PERIOD_MS) out.1;
                   EvLinkDelete h ]
    /\ take 3 wire
       = [ BusStart;
           BusTx (C.to_uint8 (Z.shiftl A 1)) true;
           BusTx (C.to_uint8 reg) true ]
    /\ out.1
       = reply_err (bus_exec (slave s) port wire (1000 / portTICK_PERIOD_MS)).
Proof.
  intros Hsz Hge out. subst out.
  assert (reaches_bus op size = true) as Hgo.
  { destruct op; [| reflexivity]. cbn. apply negb_true_iff, Z.eqb_neq. lia. }
  rewrite transact_run by exact Hgo. cbv zeta. cbn [fst snd trace].
  eexists _, _, _. split; [reflexivity |]. split; [| reflexivity].
  destruct op; cbn [link_of].
  - rewrite wire_read_link by assumption. reflexivity.
  - rewrite wire_write_link by assumption. reflexivity.
Qed.

(** C7. A call that reaches the bus executes its link once and only
    once, returns the result of that execution as it is, and has deleted
    the link when it returns, whatever the result: the handle it used was
    free before and is free again, and the table of links is as it was. *)
Theorem single_execution op port A reg buf size s :
  reaches_bus op size = true ->
  let out := transact bus_exec portTICK_PERIOD_MS op port A reg buf size s in
  let cmds := link_of op A reg buf size in
  let wire := wire_of_link (mem s) cmds in
  let reply := bus_exec (slave s) port wire (1000 / portTICK_PERIOD_MS) in
  out.1 = reply_err reply
  /\ slave out.2 = reply_state reply
  /\ count_if is_begin (trace out.2) = S (count_if is_begin (trace s))
  /\ links out.2 = links s
  /\ exists h,
       links s !! h = None /\ links out.2 !! h = None
       /\ trace out.2
          = trace s ++ [ EvLinkCreate h;
                         EvCmdBegin port h cmds wire (1000 / portTICK_PERIOD_MS)
                           (reply_err reply);
                         EvLinkDelete h ].
Proof.
  intros Hgo out cmds wire reply. subst out cmds wire reply.
  rewrite transact_run by exact Hgo. cbv zeta. cbn [fst snd trace links slave].
  repeat split.
  - rewrite count_if_app. cbn. lia.
  - exists (fresh (dom (links s))).
    assert (links s !! fresh (dom (links s)) = None) as Hfree
      by apply not_elem_of_dom, is_fresh.
    repeat split; assumption || reflexivity.
Qed.


End Transactions.

(** ** The timeout *)

Section Timeout.

Context {bus_state : Type}.
Variable bus_exec :
  bus_state -> i2c_port_t -> list bus_op -> Z -> bus_reply bus_state.
Variable portTICK_PERIOD_MS : Z.

(** Whatever the tick period, the bound handed to the driver is worth no
    more than 1000 ms, and less than one tick short of it. *)
Lemma timeout_ticks_in_ms :
  0 < portTICK_PERIOD_MS ->
  1000 / portTICK_PERIOD_MS * portTICK_PERIOD_MS = 1000 - 1000 mod portTICK_PERIOD_MS
  /\ 1000 - portTICK_PERIOD_MS < 1000 / portTICK_PERIOD_MS * portTICK_PERIOD_MS <= 1000.
Proof.
  intros Hp.
  pose proof (Z.div_mod 1000 portTICK_PERIOD_MS ltac:(lia)) as Hdm.
  pose proof (Z.mod_pos_bound 1000 portTICK_PERIOD_MS Hp) as Hm.
  lia.
Qed.

(** C8. Both routines hand the same bound to the execution of the link:
    [1000 / portTICK_PERIOD_MS] ticks, which is 1000 ms when the tick
    period divides 1000.  With a driver that honours its bound, the time
    a call takes is that of this one execution, at most 1000 ms, and the
    call returns what the execution returned, a timeout included. *)
Theorem timeout_bound op port A reg buf size (s : driver_state bus_state) :
  0 < portTICK_PERIOD_MS -> (portTICK_PERIOD_MS | 1000) ->
  honours_timeout bus_exec ->
  reaches_bus op size = true ->
  let out := transact bus_exec portTICK_PERIOD_MS op port A reg buf size s in
  let ticks := 1000 / portTICK_PERIOD_MS in
  let elapsed := clock out.2 - clock s in
  ticks * portTICK_PERIOD_MS = 1000
  /\ 0 <= elapsed * portTICK_PERIOD_MS <= 1000
  /\ exists h cmds wire,
       trace out.2
       = trace s ++ [ EvLinkCreate h; EvCmdBegin port h cmds wire ticks out.1;
                      EvLinkDelete h ]
       /\ out.1 = reply_err (bus_exec (slave s) port wire ticks)
       /\ elapsed = reply_ticks (bus_exec (slave s) port wire ticks).
Proof.
  intros Hp Hdiv Hdrv Hgo out ticks elapsed. subst out ticks elapsed.
  rewrite transact_run by exact Hgo. cbv zeta. cbn [fst snd trace clock].
  assert (1000 / portTICK_PERIOD_MS * portTICK_PERIOD_MS = 1000) as Hms.
  { apply Z.mod_divide in Hdiv; [| lia].
    destruct (timeout_ticks_in_ms Hp) as [-> _]. lia. }
  assert (0 <= 1000 / portTICK_PERIOD_MS) as Hnn by (apply Z.div_pos; lia).
  split; [exact Hms |]. split.
  - match goal with
    | |- context [reply_ticks ?r] => pose proof (Hdrv _ _ _ _ Hnn : 0 <= reply_ticks r <= _) as Hr
    end.
    nia.
  - eexists _, _, _. repeat split. lia.
Qed.

End Timeout.

(** ** [byte_swap] *)

Lemma to_uint16_mod (x : Z) : C.to_uint16 x = x mod 65536.
Proof.
  unfold C.to_uint16. change 0xFFFF with (Z.ones 16).
  rewrite Z.land_ones by lia. reflexivity.
Qed.

(** A byte and a value shifted past it share no bit, so or-ing them adds
    them. *)
Lemma lor_byte_shiftl_8 (a b : Z) :
  0 <= a < 256 -> Z.lor a (Z.shiftl b 8) = a + 256 * b.
Proof.
  intros Ha.
  assert (Z.land a (Z.shiftl b 8) = 0) as Hdisj.
  { apply Z.bits_inj'; intros n Hn. rewrite Z.land_spec, Z.bits_0.
    destruct (Z.lt_ge_cases n 8) as [Hlo | Hhi].
    - rewrite Z.shiftl_spec_low by exact Hlo. apply andb_false_r.
    - rewrite <- (Z.mod_small a (2 ^ 8)) by (change (2 ^ 8) with 256; lia).
      rewrite Z.mod_pow2_bits_high by lia. reflexivity. }
  rewrite <- Z.lxor_lor by exact Hdisj.
  rewrite <- Z.add_nocarry_lxor by exact Hdisj.
  rewrite Z.shiftl_mul_pow2 by lia. change (2 ^ 8) with 256. lia.
Qed.

(** The swap in arithmetic: high byte down, low byte up. *)
Lemma byte_swap_bytes (d : Z) :
  C.is_uint16 d -> byte_swap d = d / 256 + 256 * (d mod 256).
Proof.
  intros Hd. unfold C.is_uint16 in Hd. unfold byte_swap.
  rewrite to_uint16_mod, Z.shiftr_div_pow2 by lia. change (2 ^ 8) with 256.
  rewrite lor_byte_shiftl_8 by (Z.div_mod_to_equations; lia).
  Z.div_mod_to_equations. lia.
Qed.

(** C9. On 16-bit values [byte_swap] is the 16-bit value of
    [(d >> 8) | (d << 8)]: its low byte is the high byte of [d], its high
    byte the low byte of [d], and swapping twice gives [d] back. *)
Theorem byte_swap_exchanges_bytes (d : Z) :
  C.is_uint16 d ->
  byte_swap d = Z.lor (Z.shiftr d 8) (Z.shiftl d 8) mod 2 ^ 16
  /\ C.is_uint16 (byte_swap d)
  /\ byte_swap d mod 256 = d / 256
  /\ byte_swap d / 256 = d mod 256
  /\ byte_swap (byte_swap d) = d.
Proof.
  intros Hd.
  assert (C.is_uint16 (byte_swap d)) as Hr.
  { rewrite byte_swap_bytes by exact Hd. unfold C.is_uint16 in *.
    Z.div_mod_to_equations. lia. }
  split; [| split; [exact Hr | split; [| split]]].
  - unfold byte_swap. apply to_uint16_mod.
  - rewrite byte_swap_bytes by exact Hd. unfold C.is_uint16 in Hd.
    Z.div_mod_to_equations. lia.
  - rewrite byte_swap_bytes by exact Hd. unfold C.is_uint16 in Hd.
    Z.div_mod_to_equations. lia.
  - rewrite (byte_swap_bytes (byte_swap d)) by exact Hr.
    rewrite (byte_swap_bytes d) by exact Hd. unfold C.is_uint16 in Hd.
    Z.div_mod_to_equations. lia.
Qed.

(** ** Runs on the simulated slave *)

Lemma simbus_honours_timeout : honours_timeout SimBus.exec.
Proof.
  intros d port wire ticks Hticks. unfold SimBus.exec.
  destruct (ticks <? Z.of_nat (length wire)) eqn:Hfit.
  - cbn. lia.
  - apply Z.ltb_ge in Hfit.
    destruct (SimBus.run d wire []) as [[err rx] d']. cbn. lia.
Qed.

(** The identification read of [app_main]: one byte from [WHO_AM_I_REG]. *)
Example who_am_i_run :
  let out := rdMMC5x SimBus.exec 10 WHO_AM_I_REG 100 1 (SimBus.boot ∅) in
  out.1 = ESP_OK /\ mem out.2 !! 100 = Some DEVICE_ID.
Proof. vm_compute. split; reflexivity. Qed.

(** A byte written to a register is the byte read back from it. *)
Example write_then_read_run :
  let s0 := SimBus.boot {[ 200 := 0x42 ]} in
  let s1 := (wrMMC5x SimBus.exec 10 MMC5603NJ_CTRL_REG0 200 1 s0).2 in
  let out := rdMMC5x SimBus.exec 10 MMC5603NJ_CTRL_REG0 100 1 s1 in
  out.1 = ESP_OK /\ mem out.2 !! 100 = Some 0x42.
Proof. vm_compute. split; reflexivity. Qed.

(** With a tick of a full second the bound is one tick, too short for
    any transaction on this bus: the timeout comes back to the caller. *)
Example timeout_run :
  (rdMMC5x SimBus.exec 1000 WHO_AM_I_REG 100 1 (SimBus.boot ∅)).1 = ESP_ERR_TIMEOUT.
Proof. vm_compute. reflexivity. Qed.

Example byte_swap_run : byte_swap 0x1234 = 0x3412.
Proof. reflexivity. Qed.

(** Side conditions at concrete inputs: a range, or a guard that
    evaluates. *)
Ltac side :=
  first [ reflexivity
        | cbv [C.is_uint8 C.is_uint16 C.is_size_t C.NULL
               MMC5603NJ_I2C_ADDR WHO_AM_I_REG MMC5603NJ_CTRL_REG0]; lia
        | exists 100; reflexivity ].

Lemma read_transaction_sequence_witness :
  let out := i2c_master_read_slave_reg SimBus.exec 10 I2C_PORT_NUM
               MMC5603NJ_I2C_ADDR WHO_AM_I_REG 100 3 (SimBus.boot ∅) in
  out.1 = ESP_OK
  /\ SimBus.ptr (slave out.2) = 0x3C
  /\ mem out.2 !! 100 = Some DEVICE_ID
  /\ clock out.2 = 9
  /\ exists h,
    trace out.2
    = [ EvLinkCreate h;
        EvCmdBegin 1 h
          [ CmdStart; CmdWriteByte 0x60 true; CmdWriteByte 0x39 true; CmdStart;
            CmdWriteByte 0x61 true; CmdRead 100 2 0; CmdReadByte 102 1; CmdStop ]
          [ BusStart; BusTx 0x60 true; BusTx 0x39 true; BusStart;
            BusTx 0x61 true; BusRx ACK; BusRx ACK; BusRx NACK; BusStop ]
          100 ESP_OK;
        EvLinkDelete h ].
Proof.
  intros out.
  destruct (read_transaction_sequence SimBus.exec 10 I2C_PORT_NUM
              MMC5603NJ_I2C_ADDR WHO_AM_I_REG 100 3 (SimBus.boot ∅))
    as (Hret & Hdev & Hmem & Hclock & h & Hh); [side ..|].
  subst out. rewrite Hret, Hdev, Hmem, Hclock.
  repeat split; try (vm_compute; reflexivity).
  exists h. rewrite Hh. vm_compute. reflexivity.
Defined.

Lemma write_transaction_sequence_witness :
  let s0 := SimBus.boot {[ 200 := 0x42; 201 := 0x07 ]} in
  let out := i2c_master_write_slave_reg SimBus.exec 10 I2C_PORT_NUM
               MMC5603NJ_I2C_ADDR MMC5603NJ_CTRL_REG0 200 2 s0 in
  out.1 = ESP_OK
  /\ SimBus.regs (slave out.2) !! 0x1A = Some 0x42
  /\ SimBus.regs (slave out.2) !! 0x1B = Some 0x07
  /\ clock out.2 = 6
  /\ exists h,
    trace out.2
    = [ EvLinkCreate h;
        EvCmdBegin 1 h
          [ CmdStart; CmdWriteByte 0x60 true; CmdWriteByte 0x1A true;
            CmdWrite 200 2 true; CmdStop ]
          [ BusStart; BusTx 0x60 true; BusTx 0x1A true;
            BusTx 0x42 true; BusTx 0x07 true; BusStop ]
          100 ESP_OK;
        EvLinkDelete h ].
Proof.
  intros s0 out.
  destruct (write_transaction_sequence SimBus.exec 10 I2C_PORT_NUM
              MMC5603NJ_I2C_ADDR MMC5603NJ_CTRL_REG0 200 2 s0)
    as (_ & _ & _ & Hret & Hdev & Hclock & h & Hh); [side ..|].
  subst out. rewrite Hret, Hdev, Hclock.
  repeat split; try (vm_compute; reflexivity).
  exists h. rewrite Hh. vm_compute. reflexivity.
Defined.

Lemma one_stop_per_transaction_witness :
  let out := transact SimBus.exec 10 Read I2C_PORT_NUM
               MMC5603NJ_I2C_ADDR WHO_AM_I_REG 100 2 (SimBus.boot ∅) in
  exists h cmds wire,
    trace out.2 = [ EvLinkCreate h; EvCmdBegin 1 h cmds wire 100 out.1;
                    EvLinkDelete h ]
    /\ count_if is_stop cmds = 1%nat /\ list.last cmds = Some CmdStop
    /\ count_if is_bus_stop wire = 1%nat /\ list.last wire = Some BusStop.
Proof.
  exact (one_stop_per_transaction SimBus.exec 10 Read I2C_PORT_NUM
           MMC5603NJ_I2C_ADDR WHO_AM_I_REG 100 2 (SimBus.boot ∅)
           ltac:(side) ltac:(side)).
Defined.

Lemma address_framing_witness :
  let out := transact SimBus.exec 10 Read I2C_PORT_NUM
               MMC5603NJ_I2C_ADDR WHO_AM_I_REG 100 1 (SimBus.boot ∅) in
  C.to_uint8 (Z.shiftl MMC5603NJ_I2C_ADDR 1) = 0x60
  /\ C.to_uint8 (Z.lor (Z.shiftl MMC5603NJ_I2C_ADDR 1) 1) = 0x61
  /\ exists h cmds wire,
       trace out.2 = [ EvLinkCreate h; EvCmdBegin 1 h cmds wire 100 out.1;
                       EvLinkDelete h ]
       /\ address_frames wire = [0x60; 0x61].
Proof.
  exact (address_framing SimBus.exec 10 Read I2C_PORT_NUM
           MMC5603NJ_I2C_ADDR WHO_AM_I_REG 100 1 (SimBus.boot ∅)
           ltac:(side) ltac:(side) ltac:(side)).
Defined.

Lemma null_buffer_not_checked_witness :
  let out := transact SimBus.exec 10 Write I2C_PORT_NUM
               MMC5603NJ_I2C_ADDR MMC5603NJ_CTRL_REG0 C.NULL 1 (SimBus.boot ∅) in
  exists h cmds wire,
    trace out.2 = [ EvLinkCreate h; EvCmdBegin 1 h cmds wire 100 out.1;
                    EvLinkDelete h ]
    /\ take 3 wire = [ BusStart; BusTx 0x60 true; BusTx 0x1A true ]
    /\ out.1 = reply_err (SimBus.exec SimBus.dev0 1 wire 100).
Proof.
  exact (null_buffer_not_checked SimBus.exec 10 Write I2C_PORT_NUM
           MMC5603NJ_I2C_ADDR MMC5603NJ_CTRL_REG0 1 (SimBus.boot ∅)
           ltac:(side) ltac:(side)).
Defined.

(** C6 as the specification has it fails: a write, and a read, of one
    byte with a null buffer go to the bus and come back with its result,
    here [ESP_OK], not with an argument error. *)
Lemma null_buffer_counterexample :
  ~ null_buffer_rejected SimBus.exec 10 Write I2C_PORT_NUM
      MMC5603NJ_I2C_ADDR MMC5603NJ_CTRL_REG0 1 (SimBus.boot ∅)
  /\ ~ null_buffer_rejected SimBus.exec 10 Read I2C_PORT_NUM
        MMC5603NJ_I2C_ADDR WHO_AM_I_REG 1 (SimBus.boot ∅).
Proof.
  split; intros [Herr _]; vm_compute in Herr; discriminate Herr.
Qed.

Lemma single_execution_witness :
  let s0 := SimBus.boot ∅ in
  let out := transact SimBus.exec 10 Read I2C_PORT_NUM
               MMC5603NJ_I2C_ADDR WHO_AM_I_REG 100 1 s0 in
  out.1 = ESP_OK
  /\ count_if is_begin (trace out.2) = 1%nat
  /\ links out.2 = ∅.
Proof.
  intros s0 out.
  destruct (single_execution SimBus.exec 10 Read I2C_PORT_NUM
              MMC5603NJ_I2C_ADDR WHO_AM_I_REG 100 1 s0 ltac:(side))
    as (Hret & _ & Hcount & Hlinks & _).
  split; [| split].
  - subst out. rewrite Hret. vm_compute. reflexivity.
  - subst out. rewrite Hcount. reflexivity.
  - subst out. rewrite Hlinks. reflexivity.
Defined.

Lemma timeout_bound_witness :
  let s0 := SimBus.boot ∅ in
  let out := transact SimBus.exec 10 Read I2C_PORT_NUM
               MMC5603NJ_I2C_ADDR WHO_AM_I_REG 100 1 s0 in
  1000 / 10 * 10 = 1000
  /\ 0 <= (clock out.2 - clock s0) * 10 <= 1000
  /\ exists h cmds wire,
       trace out.2 = [ EvLinkCreate h; EvCmdBegin 1 h cmds wire (1000 / 10) out.1;
                       EvLinkDelete h ]
       /\ out.1 = reply_err (SimBus.exec SimBus.dev0 1 wire (1000 / 10))
       /\ clock out.2 - clock s0
          = reply_ticks (SimBus.exec SimBus.dev0 1 wire (1000 / 10)).
Proof.
  exact (timeout_bound SimBus.exec 10 Read I2C_PORT_NUM
           MMC5603NJ_I2C_ADDR WHO_AM_I_REG 100 1 (SimBus.boot ∅)
           ltac:(side) ltac:(side) simbus_honours_timeout ltac:(side)).
Defined.

Lemma byte_swap_exchanges_bytes_witness :
  byte_swap 0x1234 = 0x3412
  /\ byte_swap 0x1234 mod 256 = 0x12
  /\ byte_swap 0x1234 / 256 = 0x34
  /\ byte_swap (byte_swap 0x1234) = 0x1234.
Proof.
  destruct (byte_swap_exchanges_bytes 0x1234 ltac:(side))
    as (Hdef & _ & Hlo & Hhi & Hinv).
  split; [| split; [| split]].
  - rewrite Hdef. reflexivity.
  - rewrite Hlo. reflexivity.
  - rewrite Hhi. reflexivity.
  - exact Hinv.
Defined.


(** * Further properties *)

(** ** Memory *)

(** Only the destinations that get a byte are written. *)
Lemma store_bytes_lookup_other (m : gmap Z Z) (dst bytes : list Z) (a : Z) :
  a ∉ take (length bytes) dst -> store_bytes m dst bytes !! a = m !! a.
Proof.
  revert m bytes. induction dst as [| d dst IH]; intros m bytes Ha.
  - reflexivity.
  - destruct bytes as [| b bytes]; [reflexivity |].
    cbn in Ha. apply not_elem_of_cons in Ha as [Hne Ha].
    cbn. rewrite IH by exact Ha. apply lookup_insert_ne. congruence.
Qed.

(** The [i]-th byte goes to the [i]-th destination. *)
Lemma store_bytes_lookup (m : gmap Z Z) (dst bytes : list Z) (i : nat) (a b : Z) :
  NoDup dst -> dst !! i = Some a -> bytes !! i = Some b ->
  store_bytes m dst bytes !! a = Some b.
Proof.
  revert m bytes i. induction dst as [| d dst IH]; intros m bytes i Hnd Ha Hb.
  - discriminate Ha.
  - destruct bytes as [| b0 bytes]; [discriminate Hb |].
    apply NoDup_cons in Hnd as [Hd Hnd]. destruct i as [| i]; cbn in *.
    + injection Ha as ->. injection Hb as ->.
      rewrite store_bytes_lookup_other.
      * apply lookup_insert_eq.
      * intros Hin. apply Hd. eapply subseteq_take. exact Hin.
    + eapply IH; eassumption.
Qed.

Lemma buffer_slots_NoDup (buf : Z) (n : nat) :
  NoDup (map (fun i => buf + Z.of_nat i) (seq 0 n)).
Proof.
  apply NoDup_fmap_2; [| apply NoDup_seq].
  intros i j Hij. lia.
Qed.

Lemma buffer_slots_lookup (buf : Z) (n i : nat) :
  (i < n)%nat ->
  map (fun i => buf + Z.of_nat i) (seq 0 n) !! i = Some (buf + Z.of_nat i).
Proof.
  intros Hi. change (map ?f ?l) with (f <$> l).
  rewrite list_lookup_fmap, lookup_seq_lt by exact Hi. reflexivity.
Qed.

Lemma buffer_slots_elem (buf a : Z) (n k : nat) :
  a ∈ take k (map (fun i => buf + Z.of_nat i) (seq 0 n)) ->
  buf <= a < buf + Z.of_nat (Nat.min k n).
Proof.
  intros Hin. apply list_elem_of_lookup in Hin as [i Hi].
  apply lookup_take_Some in Hi as [Hi Hlt].
  change (map ?f ?l) with (f <$> l) in Hi.
  rewrite list_lookup_fmap in Hi.
  destruct (seq 0 n !! i) as [j |] eqn:Hj; [| discriminate Hi].
  apply lookup_seq in Hj as [-> Hj]. injection Hi as <-. lia.
Qed.

Section Memory.

Context {bus_state : Type}.
Variable bus_exec :
  bus_state -> i2c_port_t -> list bus_op -> Z -> bus_reply bus_state.
Variable portTICK_PERIOD_MS : Z.

Implicit Types (s : driver_state bus_state).

(** X1. The bytes a read receives are stored in the buffer in the order
    they arrive: the [i]-th at [data_rd + i], for every [i] below [size].
    The block read with ACK and the last byte read with NACK tile the
    buffer with no gap and no overlap. *)
Theorem read_delivers_bytes port A reg buf size s (i : nat) (b : Z) :
  C.is_size_t size -> 1 <= size ->
  let out := i2c_master_read_slave_reg bus_exec portTICK_PERIOD_MS
               port A reg buf size s in
  let wire := wire_of_link (mem s) (read_slave_reg_link A reg buf size) in
  let reply := bus_exec (slave s) port wire (1000 / portTICK_PERIOD_MS) in
  Z.of_nat i < size -> reply_rx reply !! i = Some b ->
  mem out.2 !! (buf + Z.of_nat i) = Some b.
Proof.
  intros Hsz Hge out wire reply Hi Hb. subst out wire reply.
  rewrite read_slave_reg_run by lia. cbv zeta. cbn [snd mem].
  rewrite rx_dest_read_link by assumption.
  eapply store_bytes_lookup; [apply buffer_slots_NoDup | | exact Hb].
  apply buffer_slots_lookup. lia.
Qed.

(** X2. A read writes nowhere but in the first [size] bytes of its
    buffer, and there only as far as bytes were received: memory below
    the buffer, above it, and from the first byte not received on is as it
    was.  This holds for every size, zero included, and every reply. *)
Theorem read_touches_only_buffer port A reg buf size s (a : Z) :
  C.is_size_t size ->
  let out := i2c_master_read_slave_reg bus_exec portTICK_PERIOD_MS
               port A reg buf size s in
  let wire := wire_of_link (mem s) (read_slave_reg_link A reg buf size) in
  let reply := bus_exec (slave s) port wire (1000 / portTICK_PERIOD_MS) in
  a < buf \/ buf + size <= a \/ buf + Z.of_nat (length (reply_rx reply)) <= a ->
  mem out.2 !! a = mem s !! a.
Proof.
  intros Hsz out wire reply Ha. subst out wire reply.
  destruct (decide (size = 0)) as [-> | Hne]; [reflexivity |].
  unfold C.is_size_t in Hsz.
  rewrite read_slave_reg_run by exact Hne. cbv zeta. cbn [snd mem].
  rewrite rx_dest_read_link by (unfold C.is_size_t; lia).
  apply store_bytes_lookup_other. intros Hin.
  apply buffer_slots_elem in Hin. lia.
Qed.

(** X3. A write changes no byte of memory, whatever its arguments and
    whatever the bus replies, bytes received included: its link has no
    read in it. *)
Theorem write_keeps_memory port A reg buf size s :
  mem (i2c_master_write_slave_reg bus_exec portTICK_PERIOD_MS
         port A reg buf size s).2 = mem s.
Proof.
  rewrite write_slave_reg_run. cbv zeta. cbn [snd mem]. reflexivity.
Qed.

End Memory.

(** ** What goes over the bus *)

Lemma count_if_all {A : Type} (p : A -> bool) (l : list A) :
  Forall (fun x => p x = true) l -> count_if p l = length l.
Proof.
  induction 1 as [| x l Hx _ IH]; simpl; [reflexivity |].
  rewrite Hx, IH. reflexivity.
Qed.

Section Traffic.

Context {bus_state : Type}.
Variable bus_exec :
  bus_state -> i2c_port_t -> list bus_op -> Z -> bus_reply bus_state.
Variable portTICK_PERIOD_MS : Z.

Implicit Types (s : driver_state bus_state) (op : engine_op).

(** X4. A read transmits three bytes (two address frames and the
    register index) and asks the slave for [size] bytes, as many as its
    link has places to store them; a write transmits [size + 2] bytes and
    asks for none. *)
Theorem bytes_on_the_bus op port A reg buf size s :
  C.is_size_t size -> reaches_bus op size = true ->
  let out := transact bus_exec portTICK_PERIOD_MS op port A reg buf size s in
  exists h cmds wire,
    trace out.2
    = trace s ++ [ EvLinkCreate h;
                   EvCmdBegin port h cmds wire (1000 / portTICK_PERIOD_MS) out.1;
                   EvLinkDelete h ]
    /\ length (rx_dest cmds) = count_if is_bus_rx wire
    /\ count_if is_bus_rx wire
       = match op with Read => Z.to_nat size | Write => O end
    /\ count_if is_bus_tx wire
       = match op with Read => 3%nat | Write => (2 + Z.to_nat size)%nat end.
Proof.
  intros Hsz Hgo out. subst out.
  rewrite transact_run by exact Hgo. cbv zeta. cbn [fst snd trace].
  eexists _, _, _. split; [reflexivity |].
  destruct op; cbn [link_of].
  - assert (1 <= size) as Hge.
    { cbn in Hgo. apply negb_true_iff, Z.eqb_neq in Hgo.
      unfold C.is_size_t in Hsz. lia. }
    rewrite wire_read_link, rx_dest_read_link by assumption.
    rewrite length_map, length_seq, !count_if_app.
    rewrite (count_if_all is_bus_rx (repeat _ _)) by (apply Forall_repeat; reflexivity).
    rewrite (count_if_none is_bus_tx (repeat _ _)) by (apply Forall_repeat; reflexivity).
    rewrite repeat_length. cbn. repeat split; lia.
  - rewrite wire_write_link by assumption.
    rewrite !count_if_app.
    rewrite (count_if_none is_bus_rx (map _ _)) by (apply Forall_map_const; reflexivity).
    rewrite (count_if_all is_bus_tx (map _ _)) by (apply Forall_map_const; reflexivity).
    rewrite length_map, load_bytes_length. cbn. repeat split; lia.
Qed.

(** X5. The wrappers [rdMMC5x] and [wrMMC5x] always talk to the sensor:
    whatever the register, the buffer and the count, the transaction runs
    on port [I2C_NUM_1] and opens with a start, the frame [0x60] (address
    [0x30], write direction) and the register index. *)
Theorem wrappers_address_the_sensor op reg pdata count s :
  C.is_uint8 reg -> C.is_uint8 count -> reaches_bus op count = true ->
  let out :=
    match op with
    | Read => rdMMC5x bus_exec portTICK_PERIOD_MS reg pdata count s
    | Write => wrMMC5x bus_exec portTICK_PERIOD_MS reg pdata count s
    end in
  exists h cmds wire,
    trace out.2
    = trace s ++ [ EvLinkCreate h;
                   EvCmdBegin I2C_NUM_1 h cmds wire (1000 / portTICK_PERIOD_MS) out.1;
                   EvLinkDelete h ]
    /\ take 3 wire = [ BusStart; BusTx 0x60 true; BusTx reg true ]
    /\ address_frames wire
       = match op with Read => [0x60; 0x61] | Write => [0x60] end.
Proof.
  intros Hreg Hcount Hgo out.
  assert (C.is_size_t count) as Hsz
    by (unfold C.is_uint8 in Hcount; unfold C.is_size_t; lia).
  assert (out = transact bus_exec portTICK_PERIOD_MS op I2C_PORT_NUM
                  MMC5603NJ_I2C_ADDR reg pdata count s) as ->
    by (destruct op; reflexivity).
  rewrite transact_run by exact Hgo. cbv zeta. cbn [fst snd trace].
  eexists _, _, _. split; [reflexivity |].
  destruct op; cbn [link_of].
  - assert (1 <= count) as Hge.
    { cbn in Hgo. apply negb_true_iff, Z.eqb_neq in Hgo.
      unfold C.is_uint8 in Hcount. lia. }
    rewrite wire_read_link by assumption.
    rewrite (to_uint8_small reg) by exact Hreg.
    split; [reflexivity |].
    cbn [app address_frames]. change (C.to_uint8 _) with 0x60 at 1.
    do 2 f_equal.
    generalize (Z.to_nat (count - 1)). intros n.
    induction n as [| n IH]; [reflexivity | exact IH].
  - rewrite wire_write_link by assumption.
    rewrite (to_uint8_small reg) by exact Hreg.
    split; [reflexivity |].
    cbn [app address_frames]. f_equal.
    generalize (load_bytes (mem s) pdata (Z.to_nat count)). intros l.
    induction l as [| b l IH]; [reflexivity | exact IH].
Qed.

(** X6. A call keeps nothing from earlier calls and looks at nothing but
    the bus and, for a write, the bytes of its buffer: from two driver
    states with the same devices on the bus (and the same [size] bytes at
    [buf], for a write) the same call returns the same result and leaves
    the devices in the same state, whatever else differs: links, trace,
    clock, the rest of memory. *)
Theorem call_depends_on_bus_and_payload op port A reg buf size
    (s1 s2 : driver_state bus_state) :
  C.is_size_t size ->
  slave s1 = slave s2 ->
  match op with
  | Read => True
  | Write => load_bytes (mem s1) buf (Z.to_nat size)
             = load_bytes (mem s2) buf (Z.to_nat size)
  end ->
  let out1 := transact bus_exec portTICK_PERIOD_MS op port A reg buf size s1 in
  let out2 := transact bus_exec portTICK_PERIOD_MS op port A reg buf size s2 in
  out1.1 = out2.1 /\ slave out1.2 = slave out2.2.
Proof.
  intros Hsz Hbus Hpay out1 out2. subst out1 out2.
  destruct (reaches_bus op size) eqn:Hgo.
  - rewrite !transact_run by exact Hgo. cbv zeta. cbn [fst snd slave].
    assert (wire_of_link (mem s1) (link_of op A reg buf size)
            = wire_of_link (mem s2) (link_of op A reg buf size)) as ->.
    { destruct op; cbn [link_of].
      - assert (1 <= size) as Hge.
        { cbn in Hgo. apply negb_true_iff, Z.eqb_neq in Hgo.
          unfold C.is_size_t in Hsz. lia. }
        rewrite !wire_read_link by assumption. reflexivity.
      - rewrite !wire_write_link by assumption. rewrite Hpay. reflexivity. }
    rewrite Hbus. split; reflexivity.
  - destruct op; [| discriminate Hgo].
    cbn in Hgo. apply negb_false_iff, Z.eqb_eq in Hgo. subst size.
    split; [reflexivity | exact Hbus].
Qed.

End Traffic.

(** ** The identity check *)

Section Identity.

Context {bus_state : Type}.
Variable bus_exec :
  bus_state -> i2c_port_t -> list bus_op -> Z -> bus_reply bus_state.
Variable portTICK_PERIOD_MS : Z.

Implicit Types (s : driver_state bus_state).

(** The wire sequence of the read in [mmaMMC5_init]. *)
Lemma who_am_i_wire (m : gmap Z Z) (val : Z) :
  wire_of_link m (read_slave_reg_link MMC5603NJ_I2C_ADDR WHO_AM_I_REG val 1)
  = [ BusStart; BusTx 0x60 true; BusTx 0x39 true; BusStart; BusTx 0x61 true;
      BusRx NACK; BusStop ].
Proof. reflexivity. Qed.

(** The byte [mmaMMC5_init] compares: the first one received, or, when
    none was, the byte its local held on entry. *)
Lemma who_am_i_seen val s :
  let wire :=
    [ BusStart; BusTx 0x60 true; BusTx 0x39 true; BusStart; BusTx 0x61 true;
      BusRx NACK; BusStop ] in
  let reply := bus_exec (slave s) I2C_NUM_1 wire (1000 / portTICK_PERIOD_MS) in
  load (mem (rdMMC5x bus_exec portTICK_PERIOD_MS WHO_AM_I_REG val 1 s).2) val
  = match reply_rx reply with
    | b :: _ => b
    | [] => load (mem s) val
    end.
Proof.
  cbv zeta. unfold rdMMC5x.
  rewrite read_slave_reg_run by discriminate. cbv zeta. cbn [snd mem].
  rewrite who_am_i_wire.
  change (rx_dest _) with [val + 1 - 1].
  destruct (reply_rx _) as [| b rx]; [reflexivity |].
  cbn [store_bytes]. unfold load.
  replace (val + 1 - 1) with val by lia.
  rewrite lookup_insert_eq. reflexivity.
Qed.

(** X7. What [mmaMMC5_init] logs is decided by one byte and by nothing
    else, the result of the read included: the first byte the bus
    delivered, or the byte already in the local when none was delivered.
    It logs at info level when that byte is [DEVICE_ID] and at error level
    otherwise, with the byte as the argument; the driver is left as the
    read left it. *)
Theorem identity_check_verdict val s :
  let out := mmaMMC5_init bus_exec portTICK_PERIOD_MS val s in
  let wire :=
    [ BusStart; BusTx 0x60 true; BusTx 0x39 true; BusStart; BusTx 0x61 true;
      BusRx NACK; BusStop ] in
  let reply := bus_exec (slave s) I2C_NUM_1 wire (1000 / portTICK_PERIOD_MS) in
  let seen :=
    match reply_rx reply with
    | b :: _ => b
    | [] => load (mem s) val
    end in
  log_lvl out.1 = (if seen =? DEVICE_ID then LOG_INFO else LOG_ERROR)
  /\ log_arg out.1 = seen
  /\ log_tag out.1 = TAG
  /\ out.2 = (rdMMC5x bus_exec portTICK_PERIOD_MS WHO_AM_I_REG val 1 s).2.
Proof.
  intros out wire reply seen. subst out.
  pose proof (who_am_i_seen val s) as Hseen. cbv zeta in Hseen.
  fold wire reply seen in Hseen.
  unfold mmaMMC5_init.
  destruct (rdMMC5x bus_exec portTICK_PERIOD_MS WHO_AM_I_REG val 1 s) as [r s1].
  cbn [snd] in Hseen |- *. rewrite Hseen.
  destruct (seen =? DEVICE_ID); repeat split; reflexivity.
Qed.

(** X8. A read that fails without delivering a byte is reported as a
    correct identity when the local happens to hold [DEVICE_ID] already:
    the error code of the read never reaches the comparison. *)
Theorem identity_check_ignores_failure val s :
  let out := mmaMMC5_init bus_exec portTICK_PERIOD_MS val s in
  let read := rdMMC5x bus_exec portTICK_PERIOD_MS WHO_AM_I_REG val 1 s in
  let wire :=
    [ BusStart; BusTx 0x60 true; BusTx 0x39 true; BusStart; BusTx 0x61 true;
      BusRx NACK; BusStop ] in
  let reply := bus_exec (slave s) I2C_NUM_1 wire (1000 / portTICK_PERIOD_MS) in
  reply_err reply <> ESP_OK -> reply_rx reply = [] ->
  load (mem s) val = DEVICE_ID ->
  read.1 <> ESP_OK
  /\ log_lvl out.1 = LOG_INFO /\ log_arg out.1 = DEVICE_ID.
Proof.
  intros out read wire reply Herr Hrx Hstale. subst out read.
  pose proof (who_am_i_seen val s) as Hseen. cbv zeta in Hseen.
  fold wire reply in Hseen. rewrite Hrx, Hstale in Hseen.
  split.
  - unfold rdMMC5x. rewrite read_slave_reg_run by discriminate.
    cbv zeta. cbn [fst]. rewrite who_am_i_wire. exact Herr.
  - unfold mmaMMC5_init.
    destruct (rdMMC5x bus_exec portTICK_PERIOD_MS WHO_AM_I_REG val 1 s) as [r s1].
    cbn [snd] in Hseen |- *. rewrite Hseen.
    split; reflexivity.
Qed.

End Identity.

(** ** [byte_swap] again *)

(** X9. Swapping changes a 16-bit value unless its two bytes are equal:
    [byte_swap d = d] exactly for the multiples of [0x0101]. *)
Theorem byte_swap_fixed_points (d : Z) :
  C.is_uint16 d -> (byte_swap d = d <-> d mod 257 = 0).
Proof.
  intros Hd. rewrite byte_swap_bytes by exact Hd. unfold C.is_uint16 in Hd.
  split; intros H; Z.div_mod_to_equations; lia.
Qed.

(** ** A register written and read back *)

Lemma simbus_write_one (d : SimBus.dev) (port : i2c_port_t) (reg v ticks : Z) :
  5 <= ticks ->
  SimBus.exec d port
    [ BusStart; BusTx 0x60 true; BusTx reg true; BusTx v true; BusStop ] ticks
  = BusReply ESP_OK [] 5
      (SimBus.Dev (<[reg := v]> (SimBus.regs d)) ((reg + 1) mod 256) SimBus.Idle).
Proof.
  intros Hfit. unfold SimBus.exec.
  replace (ticks <? _) with false by (symmetry; apply Z.ltb_ge; cbn; lia).
  reflexivity.
Qed.

Lemma simbus_read_one (d : SimBus.dev) (port : i2c_port_t) (reg ticks : Z) :
  7 <= ticks ->
  SimBus.exec d port
    [ BusStart; BusTx 0x60 true; BusTx reg true; BusStart; BusTx 0x61 true;
      BusRx NACK; BusStop ] ticks
  = BusReply ESP_OK [load (SimBus.regs d) reg] 7
      (SimBus.Dev (SimBus.regs d) ((reg + 1) mod 256) SimBus.Idle).
Proof.
  intros Hfit. unfold SimBus.exec.
  replace (ticks <? _) with false by (symmetry; apply Z.ltb_ge; cbn; lia).
  reflexivity.
Qed.

(** X10. The two sequences fit the register protocol of the device: on
    the simulated slave, from any state of the driver and of the device,
    [wrMMC5x] of one byte to a register followed by [rdMMC5x] of one byte
    from it both succeed, and the byte read into the second buffer is the
    byte the first buffer held, provided the timeout leaves the seven
    ticks the longer of the two transactions takes. *)
Theorem register_round_trip (portTICK_PERIOD_MS reg wbuf rbuf : Z)
    (s : driver_state SimBus.dev) :
  C.is_uint8 reg -> 7 <= 1000 / portTICK_PERIOD_MS ->
  let written := wrMMC5x SimBus.exec portTICK_PERIOD_MS reg wbuf 1 s in
  let out := rdMMC5x SimBus.exec portTICK_PERIOD_MS reg rbuf 1 written.2 in
  written.1 = ESP_OK
  /\ out.1 = ESP_OK
  /\ mem out.2 !! rbuf = Some (load (mem s) wbuf).
Proof.
  intros Hreg Hfit written out. subst out written.
  unfold wrMMC5x, rdMMC5x.
  rewrite write_slave_reg_run. cbv zeta.
  rewrite wire_write_link by (unfold C.is_size_t; lia).
  rewrite (to_uint8_small reg) by exact Hreg.
  change (load_bytes (mem s) wbuf (Z.to_nat 1)) with [load (mem s) (wbuf + 0)].
  change (C.to_uint8 (Z.shiftl MMC5603NJ_I2C_ADDR 1)) with 0x60.
  cbn [app map]. rewrite simbus_write_one by lia.
  cbn [fst snd reply_err reply_rx reply_state reply_ticks].
  rewrite read_slave_reg_run by discriminate. cbv zeta.
  cbn [fst snd mem slave].
  rewrite wire_read_link by (unfold C.is_size_t; lia).
  rewrite (to_uint8_small reg) by exact Hreg.
  change (C.to_uint8 (Z.shiftl MMC5603NJ_I2C_ADDR 1)) with 0x60.
  change (C.to_uint8 (Z.lor (Z.shiftl MMC5603NJ_I2C_ADDR 1) 1)) with 0x61.
  change (Z.to_nat (1 - 1)) with O. cbn [app repeat].
  rewrite simbus_read_one by lia.
  cbn [reply_err reply_rx SimBus.regs].
  change (rx_dest (read_slave_reg_link _ _ rbuf 1)) with [rbuf + 1 - 1].
  change (rx_dest (write_slave_reg_link _ _ _ _)) with (@nil Z).
  cbn [store_bytes].
  replace (rbuf + 1 - 1) with rbuf by lia.
  replace (wbuf + 0) with wbuf by lia.
  repeat split.
  rewrite lookup_insert_eq. unfold load at 1. rewrite lookup_insert_eq.
  reflexivity.
Qed.

(** ** Runs on the simulated slave, continued *)

Lemma read_delivers_bytes_witness :
  let out := i2c_master_read_slave_reg SimBus.exec 10 I2C_PORT_NUM
               MMC5603NJ_I2C_ADDR WHO_AM_I_REG 100 2 (SimBus.boot {[ 101 := 0x55 ]}) in
  mem out.2 !! 100 = Some DEVICE_ID /\ mem out.2 !! 101 = Some 0.
Proof.
  split.
  - exact (read_delivers_bytes SimBus.exec 10 I2C_PORT_NUM
             MMC5603NJ_I2C_ADDR WHO_AM_I_REG 100 2 (SimBus.boot {[ 101 := 0x55 ]})
             0%nat DEVICE_ID ltac:(side) ltac:(side) ltac:(side) ltac:(side)).
  - exact (read_delivers_bytes SimBus.exec 10 I2C_PORT_NUM
             MMC5603NJ_I2C_ADDR WHO_AM_I_REG 100 2 (SimBus.boot {[ 101 := 0x55 ]})
             1%nat 0 ltac:(side) ltac:(side) ltac:(side) ltac:(side)).
Defined.

Lemma read_touches_only_buffer_witness :
  let s0 := SimBus.boot {[ 99 := 0x11; 102 := 0x22 ]} in
  let out := i2c_master_read_slave_reg SimBus.exec 10 I2C_PORT_NUM
               MMC5603NJ_I2C_ADDR WHO_AM_I_REG 100 2 s0 in
  mem out.2 !! 99 = Some 0x11 /\ mem out.2 !! 102 = Some 0x22.
Proof.
  intros s0 out. split.
  - exact (read_touches_only_buffer SimBus.exec 10 I2C_PORT_NUM
             MMC5603NJ_I2C_ADDR WHO_AM_I_REG 100 2 s0 99
             ltac:(side) ltac:(left; lia)).
  - exact (read_touches_only_buffer SimBus.exec 10 I2C_PORT_NUM
             MMC5603NJ_I2C_ADDR WHO_AM_I_REG 100 2 s0 102
             ltac:(side) ltac:(right; left; lia)).
Defined.

Lemma bytes_on_the_bus_witness :
  let out := transact SimBus.exec 10 Read I2C_PORT_NUM
               MMC5603NJ_I2C_ADDR WHO_AM_I_REG 100 4 (SimBus.boot ∅) in
  exists h cmds wire,
    trace out.2 = [ EvLinkCreate h; EvCmdBegin 1 h cmds wire 100 out.1;
                    EvLinkDelete h ]
    /\ length (rx_dest cmds) = count_if is_bus_rx wire
    /\ count_if is_bus_rx wire = 4%nat
    /\ count_if is_bus_tx wire = 3%nat.
Proof.
  exact (bytes_on_the_bus SimBus.exec 10 Read I2C_PORT_NUM
           MMC5603NJ_I2C_ADDR WHO_AM_I_REG 100 4 (SimBus.boot ∅)
           ltac:(side) ltac:(side)).
Defined.

Lemma wrappers_address_the_sensor_witness :
  let out := wrMMC5x SimBus.exec 10 MMC5603NJ_CTRL_REG0 200 1
               (SimBus.boot {[ 200 := 0x42 ]}) in
  exists h cmds wire,
    trace out.2 = [ EvLinkCreate h; EvCmdBegin 1 h cmds wire 100 out.1;
                    EvLinkDelete h ]
    /\ take 3 wire = [ BusStart; BusTx 0x60 true; BusTx 0x1A true ]
    /\ address_frames wire = [0x60].
Proof.
  exact (wrappers_address_the_sensor SimBus.exec 10 Write
           MMC5603NJ_CTRL_REG0 200 1 (SimBus.boot {[ 200 := 0x42 ]})
           ltac:(side) ltac:(side) ltac:(side)).
Defined.

Lemma call_depends_on_bus_and_payload_witness :
  let s1 := SimBus.boot {[ 200 := 0x42 ]} in
  let s2 := SimBus.boot {[ 200 := 0x42; 300 := 0x99 ]} in
  let out1 := transact SimBus.exec 10 Write I2C_PORT_NUM
                MMC5603NJ_I2C_ADDR MMC5603NJ_CTRL_REG0 200 1 s1 in
  let out2 := transact SimBus.exec 10 Write I2C_PORT_NUM
                MMC5603NJ_I2C_ADDR MMC5603NJ_CTRL_REG0 200 1 s2 in
  out1.1 = out2.1 /\ slave out1.2 = slave out2.2.
Proof.
  intros s1 s2.
  exact (call_depends_on_bus_and_payload SimBus.exec 10 Write I2C_PORT_NUM
           MMC5603NJ_I2C_ADDR MMC5603NJ_CTRL_REG0 200 1 s1 s2
           ltac:(side) ltac:(reflexivity) ltac:(reflexivity)).
Defined.

(** With a tick of a second the read times out; the local at 100 holds
    [DEVICE_ID] from before, and the check reports the identity as
    correct. *)
Lemma identity_check_ignores_failure_witness :
  let s0 := SimBus.boot {[ 100 := DEVICE_ID ]} in
  (rdMMC5x SimBus.exec 1000 WHO_AM_I_REG 100 1 s0).1 <> ESP_OK
  /\ log_lvl (mmaMMC5_init SimBus.exec 1000 100 s0).1 = LOG_INFO
  /\ log_arg (mmaMMC5_init SimBus.exec 1000 100 s0).1 = DEVICE_ID.
Proof.
  intros s0.
  exact (identity_check_ignores_failure SimBus.exec 1000 100 s0
           ltac:(vm_compute; discriminate) ltac:(reflexivity)
           ltac:(reflexivity)).
Defined.

(** On the device as it powers up the check passes. *)
Example identity_check_run :
  (mmaMMC5_init SimBus.exec 10 100 (SimBus.boot ∅)).1
  = LogLine LOG_INFO "i2c_restart" "MMC5x ID:0x%X (ok)" 0x10.
Proof. vm_compute. reflexivity. Qed.

Lemma byte_swap_fixed_points_witness :
  byte_swap 0x1212 = 0x1212 <-> 0x1212 mod 257 = 0.
Proof.
  exact (byte_swap_fixed_points 0x1212 ltac:(side)).
Defined.

Lemma register_round_trip_witness :
  let s0 := SimBus.boot {[ 200 := 0x42 ]} in
  let written := wrMMC5x SimBus.exec 10 MMC5603NJ_CTRL_REG0 200 1 s0 in
  let out := rdMMC5x SimBus.exec 10 MMC5603NJ_CTRL_REG0 100 1 written.2 in
  written.1 = ESP_OK /\ out.1 = ESP_OK /\ mem out.2 !! 100 = Some 0x42.
Proof.
  intros s0.
  exact (register_round_trip 10 MMC5603NJ_CTRL_REG0 200 100 s0
           ltac:(side) ltac:(vm_compute; discriminate)).
Defined.
